(** * request-node: the node lifecycle and the request gate

    A shallow embedding of [src/requestNode.ts]: the [RequestNode] class with
    its [initialized] flag, its [initialize()] method and the route table that
    [mountRoutes()] installs, and of the script [src/server.ts] that starts
    it, followed by the properties the design document states about them and
    by further properties read off the code.

    What lives outside the class is taken as an interface: the data-access
    layer, the clock and the timers, the three request adapters imported from
    [./request/], and Express' own matching of a mounted route against an
    incoming request.  The middlewares mounted in front of the router (CORS,
    custom headers, body parsers) belong to the transport shell; the model
    starts at the router, with a request they have passed on. *)

From Stdlib Require Import String Ascii List ZArith Bool Lia.
Import ListNotations.

Local Open Scope string_scope.
Local Open Scope Z_scope.

(** ** Constants *)

(** The three codes of [http-status-codes] the class uses. *)
Module httpStatus.
Definition OK : Z := 200.
Definition NOT_FOUND : Z := 404.
Definition SERVICE_UNAVAILABLE : Z := 503.
End httpStatus.

(** The JavaScript escape [\n]. *)
Definition nl : string := String (ascii_of_nat 10) EmptyString.

Definition NOT_FOUND_MESSAGE : string :=
  "Not found" ++ nl ++ "Available endpoints:" ++ nl ++
  "/POST persistTransaction" ++ nl ++
  "/GET getTransactionsByChannelId" ++ nl ++
  "/GET getChannelsByTopic".

Definition NOT_INITIALIZED_MESSAGE : string := "The node is not initialized".

(** The warm-up delay of [initialize()], in milliseconds: [sleep(10000)]. *)
Definition WARM_UP_DELAY : Z := 10000.

(** ** Requests, responses and what a run leaves behind *)

Inductive Verb := GET | POST | PUT | DELETE | PATCH | HEAD | OPTIONS.

Definition verb_name (v : Verb) : string :=
  match v with
  | GET => "GET" | POST => "POST" | PUT => "PUT" | DELETE => "DELETE"
  | PATCH => "PATCH" | HEAD => "HEAD" | OPTIONS => "OPTIONS"
  end.

Definition verb_eqb (a b : Verb) : bool := String.eqb (verb_name a) (verb_name b).

(** [clientRequest]: its method, its path, and the parameters the adapters
    read (query string or parsed body), which the class never looks at. *)
Record Request := mkRequest {
  method : Verb;
  path : string;
  payload : string
}.

(** What [serverResponse.status(code).send(body)] writes. *)
Record Response := mkResponse {
  status : Z;
  body : string
}.

(** Log messages: plain text, or the template
    [`Time to initialize: ${(end - start) / 1000}s`], kept with the
    difference of the two [Date.now()] readings in milliseconds. *)
Inductive Message :=
| Text (s : string)
| TimeToInitialize (elapsed_ms : Z).

(** The adapters of [./request/]. *)
Inductive Adapter :=
| persistTransaction
| getTransactionsByChannelId
| getChannelsByTopic.

(** The effects of the class, in the order they happen. *)
Inductive Event :=
| LoggerInfo (msg : Message) (tags : list string)
| LoggerError (msg : Message)
| Sleep (ms : Z)
| DataAccessInitialize
| DataAccessStartAutoSynchronization
| SetInitialized (b : bool)
| Delegate (a : Adapter) (req : Request).

(** A JavaScript completion: a value, or a thrown error (a rejected promise
    for an [async] function). *)
Inductive Completion (E A : Type) :=
| Normal (a : A)
| Throw (e : E).
Arguments Normal {E A} a.
Arguments Throw {E A} e.

(** ** The collaborators

    [W] is the state of everything outside the class: the clock, the
    data-access layer and the storage behind it.  [E] is the type of the
    values they throw. *)
Class Externals (W E : Type) := {
  (* Date.now() *)
  Date_now : W -> Z;
  (* the world once a setTimeout of the given delay has fired *)
  timer_fired : Z -> W -> W;
  (* await this.dataAccess.initialize() *)
  dataAccess_initialize : W -> Completion E unit * W;
  (* this.dataAccess.startAutoSynchronization() *)
  dataAccess_startAutoSynchronization : W -> Completion E unit * W;
  (* the adapters: the response they write and what they do to the world *)
  adapter : Adapter -> Request -> W -> Response * W;
  (* Express: does a route mounted with router.VERB(path, ...) take this
     request? *)
  route_handles : Verb -> string -> Request -> bool
}.

(** ** The node *)

(** A [RequestNode]: the private [initialized] flag, the world its
    [dataAccess] and [logger] reach, and the effects so far. *)
Record Node (W : Type) := mkNode {
  initialized : bool;
  world : W;
  history : list Event
}.
Arguments mkNode {W}.
Arguments initialized {W}.
Arguments world {W}.
Arguments history {W}.

(** State and exceptions. *)
Definition M (W E A : Type) : Type := Node W -> Completion E A * Node W.

Definition ret {W E A} (a : A) : M W E A := fun s => (Normal a, s).

Definition bind {W E A B} (m : M W E A) (k : A -> M W E B) : M W E B :=
  fun s =>
    match m s with
    | (Normal a, s') => k a s'
    | (Throw e, s') => (Throw e, s')
    end.

Definition throw {W E A} (e : E) : M W E A := fun s => (Throw e, s).

(** [try { m } catch (error) { h error }] *)
Definition try_catch {W E A} (m : M W E A) (h : E -> M W E A) : M W E A :=
  fun s =>
    match m s with
    | (Normal a, s') => (Normal a, s')
    | (Throw e, s') => h e s'
    end.

Declare Scope node_scope.
Delimit Scope node_scope with node.
Notation "x <- m ;; k" := (bind m (fun x => k))
  (at level 100, m at next level, right associativity) : node_scope.
Notation "m ;; k" := (bind m (fun _ => k))
  (at level 100, right associativity) : node_scope.

Definition emit {W E} (ev : Event) : M W E unit :=
  fun s => (Normal tt, mkNode (initialized s) (world s) (history s ++ [ev])).

Section RequestNode.
Context {W E : Type} {X : Externals W E}.

Local Open Scope node_scope.

Definition logger_info (msg : Message) (tags : list string) : M W E unit :=
  emit (LoggerInfo msg tags).

Definition logger_error (msg : Message) : M W E unit :=
  emit (LoggerError msg).

Definition now : M W E Z := fun s => (Normal (Date_now (world s)), s).

(** [await sleep(ms)] *)
Definition sleep (ms : Z) : M W E unit :=
  fun s => (Normal tt,
            mkNode (initialized s) (timer_fired ms (world s)) (history s ++ [Sleep ms])).

(** Calls into the world, recorded in the history. *)
Definition call (ev : Event) (f : W -> Completion E unit * W) : M W E unit :=
  fun s =>
    let '(r, w) := f (world s) in
    (r, mkNode (initialized s) w (history s ++ [ev])).

Definition set_initialized (b : bool) : M W E unit :=
  fun s => (Normal tt, mkNode b (world s) (history s ++ [SetInitialized b])).

Definition get_initialized : M W E bool := fun s => (Normal (initialized s), s).

(** The constructor, on the world it is created in: [this.initialized = false]. *)
Definition constructor (w : W) : Node W := mkNode false w [].

(** [public async initialize(): Promise<void>] *)
Definition initialize : M W E unit :=
  logger_info (Text "Node initialization") [] ;;
  initializationStartTime <- now ;;
  try_catch
    (sleep WARM_UP_DELAY ;;
     call DataAccessInitialize dataAccess_initialize)
    (fun error =>
       logger_error (Text "Node failed to initialize") ;;
       throw error) ;;
  try_catch
    (call DataAccessStartAutoSynchronization dataAccess_startAutoSynchronization)
    (fun error =>
       logger_error (Text "Node failed to start auto synchronization") ;;
       throw error) ;;
  set_initialized true ;;
  logger_info (Text "Node initialized") [] ;;
  initializationEndTime <- now ;;
  logger_info (TimeToInitialize (initializationEndTime - initializationStartTime))
              ["metric"; "initialization"].

(** [serverResponse.status(code).send(body)] *)
Definition send (code : Z) (b : string) : M W E Response :=
  ret (mkResponse code b).

(** Handing the request to an adapter, with [this.dataAccess] and
    [this.logger]: the adapter reaches the world, not the flag. *)
Definition delegate (a : Adapter) (req : Request) : M W E Response :=
  fun s =>
    let '(resp, w) := adapter a req (world s) in
    (Normal resp, mkNode (initialized s) w (history s ++ [Delegate a req])).

(** The route handlers of [mountRoutes()]. *)
Definition healthz (_ : Request) : M W E Response :=
  send httpStatus.OK "OK".

Definition readyz (_ : Request) : M W E Response :=
  ready <- get_initialized ;;
  if ready then send httpStatus.OK "OK"
  else send httpStatus.SERVICE_UNAVAILABLE NOT_INITIALIZED_MESSAGE.

Definition gated (a : Adapter) (clientRequest : Request) : M W E Response :=
  ready <- get_initialized ;;
  if ready then delegate a clientRequest
  else send httpStatus.SERVICE_UNAVAILABLE NOT_INITIALIZED_MESSAGE.

Record Route := mkRoute {
  route_verb : Verb;
  route_path : string;
  route_handler : Request -> M W E Response
}.

(** The router, in mount order. *)
Definition mountRoutes : list Route :=
  [ mkRoute GET "/healthz" healthz;
    mkRoute GET "/readyz" readyz;
    mkRoute POST "/persistTransaction" (gated persistTransaction);
    mkRoute GET "/getTransactionsByChannelId" (gated getTransactionsByChannelId);
    mkRoute GET "/getChannelsByTopic" (gated getChannelsByTopic) ].

(** [// Any other route returns error 404] *)
Definition notFound (_ : Request) : M W E Response :=
  send httpStatus.NOT_FOUND NOT_FOUND_MESSAGE.

(** The first mounted route that takes the request. *)
Definition select (req : Request) : option Route :=
  find (fun r => route_handles (route_verb r) (route_path r) req) mountRoutes.

(** The verb and path of the selected route. *)
Definition matched (req : Request) : option (Verb * string) :=
  option_map (fun r => (route_verb r, route_path r)) (select req).

(** A request through the router and the fallback behind it. *)
Definition handle (req : Request) : M W E Response :=
  match select req with
  | Some r => route_handler r req
  | None => notFound req
  end.

(** What the owner of the node can do with it. *)
Inductive Operation :=
| CallInitialize
| Serve (req : Request).

Definition perform (op : Operation) (s : Node W) : Node W :=
  match op with
  | CallInitialize => snd (initialize s)
  | Serve req => snd (handle req s)
  end.

Definition perform_all (ops : list Operation) (s : Node W) : Node W :=
  fold_left (fun s op => perform op s) ops s.

End RequestNode.

(** ** Reading a history *)

(** The effects a run added to the history of the node it started from. *)
Definition emitted {W} (before after : Node W) : list Event :=
  skipn (length (history before)) (history after).

(** The timing measurement: an info log tagged [metric], [initialization]. *)
Definition is_timing (ev : Event) : bool :=
  match ev with
  | LoggerInfo (TimeToInitialize _) ["metric"; "initialization"] => true
  | _ => false
  end.

Definition is_log (ev : Event) : bool :=
  match ev with
  | LoggerInfo _ _ | LoggerError _ => true
  | _ => false
  end.

(** A history without its log entries: the lifecycle effects alone. *)
Definition effects (evs : list Event) : list Event :=
  filter (fun ev => negb (is_log ev)) evs.

(** The application routes, as mounted. *)
Definition application_routes : list (Verb * string) :=
  [ (POST, "/persistTransaction");
    (GET, "/getTransactionsByChannelId");
    (GET, "/getChannelsByTopic") ].

(** A route name without its leading slash. *)
Definition endpoint_name (p : string) : string :=
  match p with
  | String "/"%char rest => rest
  | _ => p
  end.

(** How the not-found message writes a route: [/VERB name]. *)
Definition endpoint_line (r : Verb * string) : string :=
  "/" ++ verb_name (fst r) ++ " " ++ endpoint_name (snd r).

(** The lines of a text. *)
Fixpoint lines_from (cur : string) (s : string) : list string :=
  match s with
  | EmptyString => [cur]
  | String c rest =>
      if Ascii.eqb c (ascii_of_nat 10) then cur :: lines_from "" rest
      else lines_from (cur ++ String c EmptyString) rest
  end.

Definition lines (s : string) : list string := lines_from "" s.

(** The same collaborators with another clock. *)
Definition with_clock {W E} (X : Externals W E) (clock : W -> Z) : Externals W E :=
  {| Date_now := clock;
     timer_fired := @timer_fired W E X;
     dataAccess_initialize := @dataAccess_initialize W E X;
     dataAccess_startAutoSynchronization := @dataAccess_startAutoSynchronization W E X;
     adapter := @adapter W E X;
     route_handles := @route_handles W E X |}.

(** ** The design document's lifecycle, to set against the code *)

Module Spec.

(** Section 3 of the document: the four values of [NodeState]. *)
Inductive NodeState := Uninitialized | Initializing | Ready | Failed.

(** Section 4.1: the steps of [initialize()]. *)
Inductive LifecycleStep :=
| Transition (st : NodeState)
| WarmUpDelay
| BackingInitialize
| StartSynchronization.

(** "transitions state to Initializing; waits a fixed warm-up delay; then calls
    the Backing Index Client's initialize() ... calls startSynchronization()
    ... on success, transitions state to Ready". *)
Definition documented_sequence : list LifecycleStep :=
  [ Transition Initializing; WarmUpDelay; BackingInitialize;
    StartSynchronization; Transition Ready ].

(** "On failure of either step: transitions state to Failed", here for a
    failure of the Backing Index Client's initialize(). *)
Definition documented_failure_sequence : list LifecycleStep :=
  [ Transition Initializing; WarmUpDelay; BackingInitialize; Transition Failed ].

End Spec.

(** The document's step an effect of the class stands for; the flag has two
    values, [true] for [Ready] and [false] as the constructor leaves it. *)
Definition lifecycle_step (ev : Event) : option Spec.LifecycleStep :=
  match ev with
  | Sleep _ => Some Spec.WarmUpDelay
  | DataAccessInitialize => Some Spec.BackingInitialize
  | DataAccessStartAutoSynchronization => Some Spec.StartSynchronization
  | SetInitialized true => Some (Spec.Transition Spec.Ready)
  | SetInitialized false => Some (Spec.Transition Spec.Uninitialized)
  | _ => None
  end.

Fixpoint lifecycle_steps (evs : list Event) : list Spec.LifecycleStep :=
  match evs with
  | [] => []
  | ev :: rest =>
      match lifecycle_step ev with
      | Some st => st :: lifecycle_steps rest
      | None => lifecycle_steps rest
      end
  end.

(** ** A small world to run the node in *)

Module Example.

(** A clock, and the answers the storage will give to the successive calls of
    [dataAccess.initialize()] and [startAutoSynchronization()]: [true] for a
    call that succeeds, [false] for one that throws; once a script is used up
    the calls succeed. *)
Record World := mkWorld {
  clock : Z;
  backing : list bool;
  synchronizer : list bool;
  served : list Request
}.

Definition scripted (e : string) (script : list bool) : Completion string unit * list bool :=
  match script with
  | false :: rest => (Throw e, rest)
  | true :: rest => (Normal tt, rest)
  | [] => (Normal tt, [])
  end.

Definition world_initialize (w : World) : Completion string unit * World :=
  let '(r, rest) := scripted "storage unreachable" (backing w) in
  (r, mkWorld (clock w + 250) rest (synchronizer w) (served w)).

Definition world_startAutoSynchronization (w : World) : Completion string unit * World :=
  let '(r, rest) := scripted "synchronization refused" (synchronizer w) in
  (r, mkWorld (clock w + 1) (backing w) rest (served w)).

Definition world_adapter (a : Adapter) (req : Request) (w : World) : Response * World :=
  (mkResponse httpStatus.OK (payload req),
   mkWorld (clock w + 5) (backing w) (synchronizer w) (served w ++ [req])).

(** Routes taken by verb and exact path. *)
Definition exact_match (v : Verb) (p : string) (req : Request) : bool :=
  verb_eqb v (method req) && String.eqb p (path req).

#[export] Instance externals : Externals World string :=
  {| Date_now := clock;
     timer_fired := fun ms w =>
       mkWorld (clock w + ms) (backing w) (synchronizer w) (served w);
     dataAccess_initialize := world_initialize;
     dataAccess_startAutoSynchronization := world_startAutoSynchronization;
     adapter := world_adapter;
     route_handles := exact_match |}.

(** A world whose storage answers at once. *)
Definition healthy : World := mkWorld 1000 [] [] [].

(** A world whose storage is not up yet at the first attempt. *)
Definition late_storage : World := mkWorld 1000 [false] [] [].

Definition get (p : string) : Request := mkRequest GET p "".
Definition post (p : string) (data : string) : Request := mkRequest POST p data.

Definition persist : Request := post "/persistTransaction" "tx".

(** A world whose storage answers the first call and refuses the second. *)
Definition flaky_storage : World := mkWorld 1000 [true; false] [] [].

(** A world whose synchronization cannot start at the first attempt. *)
Definition late_synchronization : World := mkWorld 1000 [] [false] [].

End Example.

(** The backing index fails during [initialize()]: either
    [dataAccess.initialize()] throws [e] once the warm-up delay has passed, or
    it succeeds and [startAutoSynchronization()] throws [e]. *)
Definition backing_fails {W E} {X : Externals W E} (s : Node W) (e : E) : Prop :=
  (exists w1,
     dataAccess_initialize (timer_fired WARM_UP_DELAY (world s)) = (Throw e, w1)) \/
  (exists w1 w2,
     dataAccess_initialize (timer_fired WARM_UP_DELAY (world s)) = (Normal tt, w1) /\
     dataAccess_startAutoSynchronization w1 = (Throw e, w2)).

(** The three ways a run of [initialize()] can go, by what the backing index
    answers. *)
Inductive Run {W E} {X : Externals W E} (s : Node W) : Type :=
| BackingThrows (e : E) (w1 : W)
    (Hinit : dataAccess_initialize (timer_fired WARM_UP_DELAY (world s)) = (Throw e, w1))
| SynchronizationThrows (e : E) (w1 w2 : W)
    (Hinit : dataAccess_initialize (timer_fired WARM_UP_DELAY (world s)) = (Normal tt, w1))
    (Hsync : dataAccess_startAutoSynchronization w1 = (Throw e, w2))
| Completes (w1 w2 : W)
    (Hinit : dataAccess_initialize (timer_fired WARM_UP_DELAY (world s)) = (Normal tt, w1))
    (Hsync : dataAccess_startAutoSynchronization w1 = (Normal tt, w2)).

(** ** Scanning a history *)

Definition is_sleep (ev : Event) : bool :=
  match ev with Sleep _ => true | _ => false end.

Definition is_backing_initialize (ev : Event) : bool :=
  match ev with DataAccessInitialize => true | _ => false end.

Definition is_start_synchronization (ev : Event) : bool :=
  match ev with DataAccessStartAutoSynchronization => true | _ => false end.

Definition is_flag_write (ev : Event) : bool :=
  match ev with SetInitialized _ => true | _ => false end.

Definition is_delegation (ev : Event) : bool :=
  match ev with Delegate _ _ => true | _ => false end.

Definition count (f : Event -> bool) (evs : list Event) : nat :=
  length (filter f evs).

Definition is_call_initialize (op : Operation) : bool :=
  match op with CallInitialize => true | Serve _ => false end.

(** How many times a sequence of operations calls [initialize()]. *)
Definition initialize_calls (ops : list Operation) : nat :=
  length (filter is_call_initialize ops).

(** The value of the flag once the writes of a history have been replayed. *)
Fixpoint flag_after (ready : bool) (evs : list Event) : bool :=
  match evs with
  | [] => ready
  | SetInitialized b :: rest => flag_after b rest
  | _ :: rest => flag_after ready rest
  end.

(** Does every delegation of a history happen while the replayed flag is
    [true]? *)
Fixpoint gate_respected (ready : bool) (evs : list Event) : bool :=
  match evs with
  | [] => true
  | SetInitialized b :: rest => gate_respected b rest
  | Delegate _ _ :: rest => ready && gate_respected ready rest
  | _ :: rest => gate_respected ready rest
  end.

(** Where a run of [initialize()] stands. *)
Inductive Phase := Idle | WarmedUp | BackingReady | Synchronizing.

(** The order [initialize()] keeps: the warm-up of 10000 ms, the backing
    index's initialization, the start of the synchronization, the flag set to
    [true]; an error log ends a run after either of the two calls.  Info logs
    and delegations may come anywhere. *)
Definition phase_step (p : Phase) (ev : Event) : option Phase :=
  match ev, p with
  | LoggerInfo _ _, _ => Some p
  | Delegate _ _, _ => Some p
  | Sleep ms, Idle => if Z.eqb ms WARM_UP_DELAY then Some WarmedUp else None
  | DataAccessInitialize, WarmedUp => Some BackingReady
  | DataAccessStartAutoSynchronization, BackingReady => Some Synchronizing
  | SetInitialized true, Synchronizing => Some Idle
  | LoggerError _, BackingReady => Some Idle
  | LoggerError _, Synchronizing => Some Idle
  | _, _ => None
  end.

Fixpoint phase_after (p : Phase) (evs : list Event) : option Phase :=
  match evs with
  | [] => Some p
  | ev :: rest =>
      match phase_step p ev with
      | Some p' => phase_after p' rest
      | None => None
      end
  end.

(** The log entries of a history. *)
Definition logs (evs : list Event) : list Event := filter is_log evs.

(** The route each adapter is mounted on. *)
Definition adapter_route (a : Adapter) : Verb * string :=
  match a with
  | persistTransaction => (POST, "/persistTransaction")
  | getTransactionsByChannelId => (GET, "/getTransactionsByChannelId")
  | getChannelsByTopic => (GET, "/getChannelsByTopic")
  end.

(** ** The process: [server.ts] *)

(** What [./config] gives: the port, the help text, and the message
    [startNode] builds from the log level, the log mode and the storage
    path. *)
Class Config := {
  getServerPort : Z;
  getHelpMessage : string;
  serverMessage : string
}.

(** What the process does: its own calls, and between them what the node
    does through the logger and the data-access layer it was given. *)
Inductive ProcessEvent (E : Type) :=
| LoggerInfoMessage (msg : string)
| Listen (port : Z)
| NodeEvent (ev : Event)
| LoggerErrorValue (error : E)
| ProcessExit (code : Z)
| ConsoleLog (msg : string).
Arguments LoggerInfoMessage {E} msg.
Arguments Listen {E} port.
Arguments NodeEvent {E} ev.
Arguments LoggerErrorValue {E} error.
Arguments ProcessExit {E} code.
Arguments ConsoleLog {E} msg.

Inductive ProcessState (W : Type) :=
| HelpPrinted
| Running (requestNode : Node W)
| Exited (code : Z) (requestNode : Node W).
Arguments HelpPrinted {W}.
Arguments Running {W} requestNode.
Arguments Exited {W} code requestNode.

(** [const startNode = async (): Promise<void>]: the node is constructed,
    told to listen, and only then initialized.  The callback handed to
    [listen] (it logs the port and returns 0) is run by the transport once
    the server listens; the trace records the call to [listen]. *)
Definition startNode {W E} {X : Externals W E} {C : Config} (w : W)
  : Completion E unit * Node W * list (ProcessEvent E) :=
  let requestNode := constructor w in
  let '(r, requestNode') := initialize requestNode in
  (r, requestNode',
   ([LoggerInfoMessage serverMessage; Listen getServerPort]
      ++ map NodeEvent (history requestNode'))%list).

(** The body of the script: [-h] prints the help; otherwise the node is
    started, and an error out of [startNode] is logged before
    [process.exit(1)]. *)
Definition main {W E} {X : Externals W E} {C : Config} (argv_h : bool) (w : W)
  : ProcessState W * list (ProcessEvent E) :=
  if argv_h then (HelpPrinted, [ConsoleLog getHelpMessage])
  else
    match startNode w with
    | (Normal _, requestNode, evs) => (Running requestNode, evs)
    | (Throw error, requestNode, evs) =>
        (Exited 1 requestNode, (evs ++ [LoggerErrorValue error; ProcessExit 1])%list)
    end.

(** A configuration to run the examples with. *)
Module Deployment.

#[export] Instance config : Config :=
  {| getServerPort := 3000;
     getHelpMessage := "USAGE: request-node [options]";
     serverMessage := "Using config:" |}.

End Deployment.

(** * Properties *)

Section Properties.
Context {W E : Type} {X : Externals W E}.

(** ** Runs of [initialize()] *)

Ltac run_initialize :=
  unfold initialize, bind, try_catch, logger_info, logger_error, emit, now,
    sleep, call, set_initialized, throw; cbn.

Lemma initialize_backing_throws (s : Node W) (e : E) (w1 : W) :
  dataAccess_initialize (timer_fired WARM_UP_DELAY (world s)) = (Throw e, w1) ->
  initialize s =
    (Throw e,
     mkNode (initialized s) w1
       (history s ++
        [ LoggerInfo (Text "Node initialization") [];
          Sleep WARM_UP_DELAY;
          DataAccessInitialize;
          LoggerError (Text "Node failed to initialize") ])).
Proof.
  intros Hinit. run_initialize. rewrite Hinit. cbn.
  repeat rewrite <- app_assoc. reflexivity.
Qed.

Lemma initialize_synchronization_throws (s : Node W) (e : E) (w1 w2 : W) :
  dataAccess_initialize (timer_fired WARM_UP_DELAY (world s)) = (Normal tt, w1) ->
  dataAccess_startAutoSynchronization w1 = (Throw e, w2) ->
  initialize s =
    (Throw e,
     mkNode (initialized s) w2
       (history s ++
        [ LoggerInfo (Text "Node initialization") [];
          Sleep WARM_UP_DELAY;
          DataAccessInitialize;
          DataAccessStartAutoSynchronization;
          LoggerError (Text "Node failed to start auto synchronization") ])).
Proof.
  intros Hinit Hsync. run_initialize. rewrite Hinit. cbn. rewrite Hsync. cbn.
  repeat rewrite <- app_assoc. reflexivity.
Qed.

Lemma initialize_completes (s : Node W) (w1 w2 : W) :
  dataAccess_initialize (timer_fired WARM_UP_DELAY (world s)) = (Normal tt, w1) ->
  dataAccess_startAutoSynchronization w1 = (Normal tt, w2) ->
  initialize s =
    (Normal tt,
     mkNode true w2
       (history s ++
        [ LoggerInfo (Text "Node initialization") [];
          Sleep WARM_UP_DELAY;
          DataAccessInitialize;
          DataAccessStartAutoSynchronization;
          SetInitialized true;
          LoggerInfo (Text "Node initialized") [];
          LoggerInfo (TimeToInitialize (Date_now w2 - Date_now (world s)))
                     ["metric"; "initialization"] ])).
Proof.
  intros Hinit Hsync. run_initialize. rewrite Hinit. cbn. rewrite Hsync. cbn.
  repeat rewrite <- app_assoc. reflexivity.
Qed.

Lemma run_cases (s : Node W) : Run s.
Proof.
  destruct (dataAccess_initialize (timer_fired WARM_UP_DELAY (world s)))
    as [[[] | e] w1] eqn:Hinit.
  - destruct (dataAccess_startAutoSynchronization w1) as [[[] | e] w2] eqn:Hsync.
    + exact (Completes s w1 w2 Hinit Hsync).
    + exact (SynchronizationThrows s e w1 w2 Hinit Hsync).
  - exact (BackingThrows s e w1 Hinit).
Qed.

Lemma emitted_app (s : Node W) (w : W) (b : bool) (evs : list Event) :
  emitted s (mkNode b w (history s ++ evs)) = evs.
Proof.
  unfold emitted. cbn. rewrite skipn_app, skipn_all, Nat.sub_diag. reflexivity.
Qed.

Lemma emitted_same (s : Node W) : emitted s s = [].
Proof. unfold emitted. apply skipn_all. Qed.


(** ** The router *)

Ltac run_handler :=
  unfold healthz, readyz, gated, notFound, delegate, send, get_initialized,
    bind, ret; cbn.

(** Walks the route table in mount order, on the tests Express makes. *)
Ltac walk_routes req :=
  unfold matched, handle, select, mountRoutes; cbn [find route_verb route_path];
  destruct (route_handles GET "/healthz" req);
  [ | destruct (route_handles GET "/readyz" req);
      [ | destruct (route_handles POST "/persistTransaction" req);
          [ | destruct (route_handles GET "/getTransactionsByChannelId" req);
              [ | destruct (route_handles GET "/getChannelsByTopic" req) ] ] ] ];
  cbn [option_map route_verb route_path route_handler].

Lemma handle_keeps_flag (req : Request) (s : Node W) :
  initialized (snd (handle req s)) = initialized s.
Proof.
  walk_routes req; run_handler;
    try reflexivity;
    destruct (initialized s) eqn:Hflag; cbn; try assumption;
    match goal with
    | |- context [adapter ?a ?r ?w] => destruct (adapter a r w); cbn; assumption
    end.
Qed.

Lemma handle_not_ready (req : Request) (s : Node W) :
  initialized s = false ->
  snd (handle req s) = s.
Proof.
  intros Hflag. walk_routes req; run_handler; rewrite ?Hflag; reflexivity.
Qed.

Lemma application_route_not_ready (s : Node W) (req : Request) (r : Verb * string) :
  initialized s = false ->
  matched req = Some r ->
  In r application_routes ->
  handle req s = (Normal (mkResponse 503 "The node is not initialized"), s).
Proof.
  intros Hflag Hmatched Happ.
  revert Hmatched. walk_routes req; intros Hmatched;
    try (inversion Hmatched; subst r; cbn in Happ;
         repeat (destruct Happ as [Happ | Happ]; try discriminate Happ);
         try contradiction);
    try discriminate Hmatched;
    run_handler; rewrite Hflag; reflexivity.
Qed.

(** ** The request gate *)

(** C1. A request that the router gives to an application route
    (POST /persistTransaction, GET /getTransactionsByChannelId,
    GET /getChannelsByTopic) while the node is not Ready is answered with
    status 503 and the body "The node is not initialized"; the node is left
    as it was: nothing is delegated to an adapter, no call reaches the
    data-access layer, the world is untouched. *)
Theorem gate_rejects_until_ready (s : Node W) (req : Request) (r : Verb * string) :
  initialized s = false ->
  matched req = Some r ->
  In r application_routes ->
  handle req s = (Normal (mkResponse 503 "The node is not initialized"), s) /\
  emitted s (snd (handle req s)) = [] /\
  world (snd (handle req s)) = world s.
Proof.
  intros Hflag Hmatched Happ.
  rewrite (application_route_not_ready s req r Hflag Hmatched Happ). cbn.
  split; [reflexivity | split; [apply emitted_same | reflexivity]].
Qed.

(** C4. A request that the router gives to GET /readyz is answered with
    status 200 and body "OK" exactly when the node is Ready, and with status
    503 and the body "The node is not initialized" otherwise; the route
    answers in every state and leaves the node as it was. *)
Theorem readyz_reports_readiness (s : Node W) (req : Request) :
  matched req = Some (GET, "/readyz") ->
  handle req s =
    (Normal (if initialized s
             then mkResponse 200 "OK"
             else mkResponse 503 "The node is not initialized"), s) /\
  (forall resp s', handle req s = (Normal resp, s') ->
     (status resp = 200 <-> initialized s = true)).
Proof.
  intros Hmatched.
  assert (Hrun : handle req s =
                 (Normal (if initialized s
                          then mkResponse 200 "OK"
                          else mkResponse 503 "The node is not initialized"), s)).
  { revert Hmatched. walk_routes req; intros Hmatched; try discriminate Hmatched.
    run_handler. destruct (initialized s); reflexivity. }
  split; [exact Hrun |].
  intros resp s' Hresp. rewrite Hrun in Hresp.
  injection Hresp as Hresp _. rewrite <- Hresp.
  destruct (initialized s); cbn; split; intros; congruence.
Qed.

(** C6. A request that the router gives to GET /healthz is answered with
    status 200 and body "OK" whatever the state of the node: before, during
    and after initialization, and after a failed one. *)
Theorem healthz_always_ok (s : Node W) (req : Request) :
  matched req = Some (GET, "/healthz") ->
  handle req s = (Normal (mkResponse 200 "OK"), s).
Proof.
  walk_routes req; intros Hmatched; try discriminate Hmatched.
  reflexivity.
Qed.

(** C7. A request that no mounted route takes is answered with status 404,
    whatever the state of the node, and the body lists the three application
    routes: after the two lines "Not found" and "Available endpoints:" comes
    one line per application route, in mount order, written [/VERB name]. *)
Theorem unknown_route_not_found (s : Node W) (req : Request) :
  matched req = None ->
  handle req s = (Normal (mkResponse 404 NOT_FOUND_MESSAGE), s) /\
  lines NOT_FOUND_MESSAGE =
    (["Not found"; "Available endpoints:"] ++ map endpoint_line application_routes)%list /\
  map (fun r => (route_verb r, route_path r)) mountRoutes =
    ([(GET, "/healthz"); (GET, "/readyz")] ++ application_routes)%list.
Proof.
  intros Hmatched. split; [| split; reflexivity].
  revert Hmatched. walk_routes req; intros Hmatched; try discriminate Hmatched.
  reflexivity.
Qed.

(** ** The lifecycle *)

(** The effects of a run, log entries aside, by what the backing index
    answers. *)
Lemma initialize_effects (s : Node W) :
  effects (emitted s (snd (initialize s))) =
    match dataAccess_initialize (timer_fired WARM_UP_DELAY (world s)) with
    | (Throw _, _) => [Sleep 10000; DataAccessInitialize]
    | (Normal _, w1) =>
        match dataAccess_startAutoSynchronization w1 with
        | (Throw _, _) =>
            [Sleep 10000; DataAccessInitialize; DataAccessStartAutoSynchronization]
        | (Normal _, _) =>
            [Sleep 10000; DataAccessInitialize; DataAccessStartAutoSynchronization;
             SetInitialized true]
        end
    end.
Proof.
  destruct (run_cases s) as [e w1 Hinit | e w1 w2 Hinit Hsync | w1 w2 Hinit Hsync].
  - rewrite (initialize_backing_throws s e w1 Hinit), Hinit. cbn [snd].
    rewrite emitted_app. reflexivity.
  - rewrite (initialize_synchronization_throws s e w1 w2 Hinit Hsync), Hinit, Hsync.
    cbn [snd]. rewrite emitted_app. reflexivity.
  - rewrite (initialize_completes s w1 w2 Hinit Hsync), Hinit, Hsync.
    cbn [snd]. rewrite emitted_app. reflexivity.
Qed.

(** A run writes the flag only when it completes. *)
Lemma initialize_flag (s : Node W) :
  initialized (snd (initialize s)) =
    match fst (initialize s) with
    | Normal _ => true
    | Throw _ => initialized s
    end.
Proof.
  destruct (run_cases s) as [e w1 Hinit | e w1 w2 Hinit Hsync | w1 w2 Hinit Hsync].
  - rewrite (initialize_backing_throws s e w1 Hinit). reflexivity.
  - rewrite (initialize_synchronization_throws s e w1 w2 Hinit Hsync). reflexivity.
  - rewrite (initialize_completes s w1 w2 Hinit Hsync). reflexivity.
Qed.

(** A run throws exactly what the backing index threw. *)
Lemma initialize_throws (s : Node W) (e : E) :
  fst (initialize s) = Throw e <-> backing_fails s e.
Proof.
  unfold backing_fails.
  destruct (run_cases s) as [e' w1 Hinit | e' w1 w2 Hinit Hsync | w1 w2 Hinit Hsync].
  - rewrite (initialize_backing_throws s e' w1 Hinit), Hinit. cbn [fst]. split.
    + intros Heq. left. exists w1. congruence.
    + intros [[w Hw] | [w [w' [Hw _]]]]; congruence.
  - rewrite (initialize_synchronization_throws s e' w1 w2 Hinit Hsync), Hinit.
    cbn [fst]. split.
    + intros Heq. right. exists w1, w2. split; congruence.
    + intros [[w Hw] | [w [w' [Hw Hw']]]]; [discriminate Hw |].
      assert (w = w1) by congruence. subst w. congruence.
  - rewrite (initialize_completes s w1 w2 Hinit Hsync), Hinit. cbn [fst]. split.
    + discriminate.
    + intros [[w Hw] | [w [w' [Hw Hw']]]]; [discriminate Hw |].
      assert (w = w1) by congruence. subst w. congruence.
Qed.

Lemma perform_keeps_ready (op : Operation) (s : Node W) :
  initialized s = true -> initialized (perform op s) = true.
Proof.
  intros Hready. destruct op as [| req]; cbn [perform].
  - rewrite initialize_flag. destruct (fst (initialize s)); [reflexivity | exact Hready].
  - rewrite handle_keeps_flag. exact Hready.
Qed.

Lemma perform_all_keeps_ready (ops : list Operation) (s : Node W) :
  initialized s = true -> initialized (perform_all ops s) = true.
Proof.
  revert s. induction ops as [| op ops IH]; intros s Hready; cbn.
  - exact Hready.
  - apply IH. apply perform_keeps_ready. exact Hready.
Qed.

(** Requests alone leave a node that is not Ready as it is. *)
Lemma serving_not_ready (reqs : list Request) (s : Node W) :
  initialized s = false -> perform_all (map Serve reqs) s = s.
Proof.
  intros Hflag. induction reqs as [| req reqs IH]; cbn.
  - reflexivity.
  - rewrite (handle_not_ready req s Hflag). exact IH.
Qed.

(** C2, as the code has it. [initialize()] performs exactly this sequence of
    effects: it waits the fixed warm-up delay of 10000 ms, then calls the
    data-access layer's [initialize()]; when that call succeeds it calls
    [startAutoSynchronization()], and when that succeeds it sets the flag to
    [true] (Ready).  Nothing is written to the node state before that: the
    flag is set once, at the end of a run that completes, and a run that
    throws leaves it as it was. *)
Theorem initialize_sequence (s : Node W) :
  effects (emitted s (snd (initialize s))) =
    match dataAccess_initialize (timer_fired WARM_UP_DELAY (world s)) with
    | (Throw _, _) => [Sleep 10000; DataAccessInitialize]
    | (Normal _, w1) =>
        match dataAccess_startAutoSynchronization w1 with
        | (Throw _, _) =>
            [Sleep 10000; DataAccessInitialize; DataAccessStartAutoSynchronization]
        | (Normal _, _) =>
            [Sleep 10000; DataAccessInitialize; DataAccessStartAutoSynchronization;
             SetInitialized true]
        end
    end /\
  initialized (snd (initialize s)) =
    match fst (initialize s) with
    | Normal _ => true
    | Throw _ => initialized s
    end.
Proof.
  split; [apply initialize_effects | apply initialize_flag].
Qed.

(** C3, as the code has it. When the data-access layer's [initialize()] or
    [startAutoSynchronization()] throws on a node that is not Ready,
    [initialize()] logs the failure and throws that same error to its
    caller; the node state is not written (the flag stays [false]: there is
    no Failed value), so however many requests are served afterwards, every
    request to an application route still gets the 503 not-initialized
    response and changes nothing, for as long as [initialize()] is not
    called again. *)
Theorem failed_initialize_keeps_gate_closed
    (s : Node W) (e : E) (reqs : list Request) (req : Request) (r : Verb * string) :
  initialized s = false ->
  backing_fails s e ->
  matched req = Some r ->
  In r application_routes ->
  fst (initialize s) = Throw e /\
  initialized (snd (initialize s)) = false /\
  (forall b, ~ In (SetInitialized b) (emitted s (snd (initialize s)))) /\
  (exists evs msg, emitted s (snd (initialize s)) = (evs ++ [LoggerError msg])%list) /\
  handle req (perform_all (map Serve reqs) (snd (initialize s))) =
    (Normal (mkResponse 503 "The node is not initialized"),
     snd (initialize s)).
Proof.
  intros Hflag Hfails Hmatched Happ.
  assert (Hthrow : fst (initialize s) = Throw e) by (apply initialize_throws; exact Hfails).
  assert (Hflag' : initialized (snd (initialize s)) = false).
  { rewrite initialize_flag, Hthrow. exact Hflag. }
  split; [exact Hthrow |]. split; [exact Hflag' |].
  split; [| split].
  - intros b Hin.
    assert (Heff : In (SetInitialized b) (effects (emitted s (snd (initialize s))))).
    { unfold effects. apply filter_In. split; [exact Hin | reflexivity]. }
    rewrite initialize_effects in Heff.
    destruct Hfails as [[w1 Hinit] | [w1 [w2 [Hinit Hsync]]]].
    + rewrite Hinit in Heff. cbn in Heff. intuition discriminate.
    + rewrite Hinit, Hsync in Heff. cbn in Heff. intuition discriminate.
  - destruct Hfails as [[w1 Hinit] | [w1 [w2 [Hinit Hsync]]]].
    + rewrite (initialize_backing_throws s e w1 Hinit). cbn [snd].
      rewrite emitted_app.
      exists [LoggerInfo (Text "Node initialization") []; Sleep WARM_UP_DELAY;
              DataAccessInitialize], (Text "Node failed to initialize").
      reflexivity.
    + rewrite (initialize_synchronization_throws s e w1 w2 Hinit Hsync). cbn [snd].
      rewrite emitted_app.
      exists [LoggerInfo (Text "Node initialization") []; Sleep WARM_UP_DELAY;
              DataAccessInitialize; DataAccessStartAutoSynchronization],
             (Text "Node failed to start auto synchronization").
      reflexivity.
  - rewrite (serving_not_ready reqs _ Hflag').
    apply (application_route_not_ready _ req r Hflag' Hmatched Happ).
Qed.

(** C5, as the code has it. The node state never regresses: along any
    sequence of operations ([initialize()] calls, whatever their outcome, and
    requests served), once the flag is [true] (Ready) it is [true] after
    every further operation, and it never goes back to the value the
    constructor gave it.  The only change an operation ever makes to the
    state is from not Ready to Ready.  Failure is no state of its own and is
    not terminal: a run of [initialize()] that throws leaves the flag as it
    was, and a run that completes sets it to [true] whatever happened
    before. *)
Theorem readiness_never_regresses (ops1 ops2 : list Operation) (s : Node W) :
  initialized (perform_all ops1 s) = true ->
  initialized (perform_all (ops1 ++ ops2) s) = true /\
  (forall op t,
     initialized (perform op t) = initialized t \/
     (initialized t = false /\ initialized (perform op t) = true)) /\
  (forall t,
     initialized (snd (initialize t)) =
       match fst (initialize t) with
       | Normal _ => true
       | Throw _ => initialized t
       end).
Proof.
  intros Hready. split; [| split].
  - unfold perform_all. rewrite fold_left_app.
    apply perform_all_keeps_ready. exact Hready.
  - intros op t. destruct op as [| req]; cbn [perform].
    + rewrite initialize_flag. destruct (fst (initialize t)).
      * destruct (initialized t); [left; reflexivity | right; split; reflexivity].
      * left. reflexivity.
    + left. apply handle_keeps_flag.
  - intros t. apply initialize_flag.
Qed.

(** C9. [initialize()] has no guard against a second call.  After a first
    call that completed (the node is Ready), a second call is neither
    rejected nor noticed: it runs the warm-up delay and the data-access
    layer's [initialize()] again, then [startAutoSynchronization()] again
    when that succeeds, exactly as a first call would, and the only errors
    it can throw are those the backing index throws. *)
Theorem second_initialize_runs_again (s0 s1 : Node W) :
  initialize s0 = (Normal tt, s1) ->
  initialized s1 = true /\
  effects (emitted s1 (snd (initialize s1))) =
    match dataAccess_initialize (timer_fired WARM_UP_DELAY (world s1)) with
    | (Throw _, _) => [Sleep 10000; DataAccessInitialize]
    | (Normal _, w1) =>
        match dataAccess_startAutoSynchronization w1 with
        | (Throw _, _) =>
            [Sleep 10000; DataAccessInitialize; DataAccessStartAutoSynchronization]
        | (Normal _, _) =>
            [Sleep 10000; DataAccessInitialize; DataAccessStartAutoSynchronization;
             SetInitialized true]
        end
    end /\
  (forall e, fst (initialize s1) = Throw e -> backing_fails s1 e) /\
  (let fresh := mkNode false (world s1) (history s1) in
   fst (initialize s1) = fst (initialize fresh) /\
   emitted s1 (snd (initialize s1)) = emitted fresh (snd (initialize fresh)) /\
   world (snd (initialize s1)) = world (snd (initialize fresh))).
Proof.
  intros Hfirst.
  split.
  { pose proof (initialize_flag s0) as Hflag. rewrite Hfirst in Hflag. exact Hflag. }
  split; [apply initialize_effects |].
  split; [intros e He; apply initialize_throws; exact He |].
  cbv zeta.
  destruct (run_cases s1) as [e w1 Hinit | e w1 w2 Hinit Hsync | w1 w2 Hinit Hsync].
  - rewrite (initialize_backing_throws s1 e w1 Hinit).
    rewrite (initialize_backing_throws (mkNode false (world s1) (history s1)) e w1 Hinit).
    cbn [fst snd world history]. rewrite emitted_app.
    unfold emitted. cbn [history]. rewrite skipn_app, skipn_all, Nat.sub_diag.
    repeat split; reflexivity.
  - rewrite (initialize_synchronization_throws s1 e w1 w2 Hinit Hsync).
    rewrite (initialize_synchronization_throws
               (mkNode false (world s1) (history s1)) e w1 w2 Hinit Hsync).
    cbn [fst snd world history]. rewrite emitted_app.
    unfold emitted. cbn [history]. rewrite skipn_app, skipn_all, Nat.sub_diag.
    repeat split; reflexivity.
  - rewrite (initialize_completes s1 w1 w2 Hinit Hsync).
    rewrite (initialize_completes (mkNode false (world s1) (history s1)) w1 w2 Hinit Hsync).
    cbn [fst snd world history]. rewrite emitted_app.
    unfold emitted. cbn [history]. rewrite skipn_app, skipn_all, Nat.sub_diag.
    repeat split; reflexivity.
Qed.

(** C10. The readiness state is one boolean, so a failed initialization
    cannot be told from one that never started: when [initialize()] throws
    on a node that was not Ready, the flag is as the constructor left it and
    every request, whatever route it goes to, gets the same response and has
    the same effects as it would have had before the call. *)
Theorem failed_indistinguishable_from_fresh
    (s s' : Node W) (e : E) (req : Request) :
  initialized s = false ->
  initialize s = (Throw e, s') ->
  initialized s' = initialized s /\
  fst (handle req s') = fst (handle req s) /\
  emitted s' (snd (handle req s')) = emitted s (snd (handle req s)).
Proof.
  intros Hflag Hrun.
  assert (Hflag' : initialized s' = false).
  { pose proof (initialize_flag s) as H. rewrite Hrun in H. cbn in H. congruence. }
  split; [congruence |].
  rewrite (handle_not_ready req s Hflag), (handle_not_ready req s' Hflag').
  rewrite !emitted_same. split; [| reflexivity].
  walk_routes req; run_handler; rewrite ?Hflag, ?Hflag'; reflexivity.
Qed.

End Properties.

(** ** The timing measurement *)

(** C8, as the code has it. A run of [initialize()] that completes emits, as
    its last effect, one timing measurement: an info log tagged [metric],
    [initialization] with the time between the clock reading taken at the
    start of the run and the one taken at its end.  A run that throws emits
    none.  The measurement is advisory: with any other clock the run has the
    same outcome, the same node state and world, and the same effects. *)
Theorem timing_measurement {W E : Type} {X : Externals W E}
    (s : Node W) (clock' : W -> Z) :
  match fst (initialize s) with
  | Normal _ =>
      exists evs,
        emitted s (snd (initialize s)) =
          (evs ++ [LoggerInfo
                     (TimeToInitialize
                        (Date_now (world (snd (initialize s))) - Date_now (world s)))
                     ["metric"; "initialization"]])%list /\
        existsb is_timing evs = false
  | Throw _ => existsb is_timing (emitted s (snd (initialize s))) = false
  end /\
  fst (@initialize W E (with_clock X clock') s) = fst (initialize s) /\
  initialized (snd (@initialize W E (with_clock X clock') s)) =
    initialized (snd (initialize s)) /\
  world (snd (@initialize W E (with_clock X clock') s)) = world (snd (initialize s)) /\
  effects (emitted s (snd (@initialize W E (with_clock X clock') s))) =
    effects (emitted s (snd (initialize s))).
Proof.
  destruct (run_cases s) as [e w1 Hinit | e w1 w2 Hinit Hsync | w1 w2 Hinit Hsync].
  - rewrite (initialize_backing_throws s e w1 Hinit).
    rewrite (@initialize_backing_throws W E (with_clock X clock') s e w1 Hinit).
    cbn [fst snd initialized world]. rewrite !emitted_app.
    repeat split; reflexivity.
  - rewrite (initialize_synchronization_throws s e w1 w2 Hinit Hsync).
    rewrite (@initialize_synchronization_throws W E (with_clock X clock') s e w1 w2
               Hinit Hsync).
    cbn [fst snd initialized world]. rewrite !emitted_app.
    repeat split; reflexivity.
  - rewrite (initialize_completes s w1 w2 Hinit Hsync).
    rewrite (@initialize_completes W E (with_clock X clock') s w1 w2 Hinit Hsync).
    cbn [fst snd initialized world]. rewrite !emitted_app.
    split; [| repeat split; reflexivity].
    exists [ LoggerInfo (Text "Node initialization") [];
             Sleep WARM_UP_DELAY;
             DataAccessInitialize;
             DataAccessStartAutoSynchronization;
             SetInitialized true;
             LoggerInfo (Text "Node initialized") [] ].
    split; reflexivity.
Qed.

(** * Beyond the design document: what the code shows *)

Section Coverage.
Context {W E : Type} {X : Externals W E}.

Ltac step_handler :=
  unfold healthz, readyz, gated, notFound, delegate, send, get_initialized,
    bind, ret; cbn.

Ltac each_route req :=
  unfold matched, handle, select, mountRoutes; cbn [find route_verb route_path];
  destruct (route_handles GET "/healthz" req);
  [ | destruct (route_handles GET "/readyz" req);
      [ | destruct (route_handles POST "/persistTransaction" req);
          [ | destruct (route_handles GET "/getTransactionsByChannelId" req);
              [ | destruct (route_handles GET "/getChannelsByTopic" req) ] ] ] ];
  cbn [option_map route_verb route_path route_handler].

(** ** The router on a Ready node *)

Lemma delegated (s : Node W) (req : Request) (a : Adapter) :
  initialized s = true ->
  matched req = Some (adapter_route a) ->
  handle req s =
    (Normal (fst (adapter a req (world s))),
     mkNode true (snd (adapter a req (world s))) (history s ++ [Delegate a req])).
Proof.
  intros Hready. each_route req; intros Hmatched;
    try discriminate Hmatched;
    try (destruct a; discriminate Hmatched);
    step_handler; rewrite Hready; cbn; rewrite ?Hready;
    destruct a; try discriminate Hmatched;
    match goal with
    | |- context [adapter ?b ?r ?w] => destruct (adapter b r w); reflexivity
    end.
Qed.

Lemma untouched (s : Node W) (req : Request) :
  initialized s = false \/ (forall a, matched req <> Some (adapter_route a)) ->
  handle req s = (Normal (mkResponse 200 "OK"), s) \/
  handle req s = (Normal (mkResponse 503 "The node is not initialized"), s) \/
  handle req s = (Normal (mkResponse 404 NOT_FOUND_MESSAGE), s).
Proof.
  intros [Hflag | Hroute].
  - each_route req; step_handler; rewrite ?Hflag; auto.
  - revert Hroute. each_route req; intros Hroute; step_handler;
      try (exfalso; apply (Hroute persistTransaction); reflexivity);
      try (exfalso; apply (Hroute getTransactionsByChannelId); reflexivity);
      try (exfalso; apply (Hroute getChannelsByTopic); reflexivity);
      destruct (initialized s); auto.
Qed.

(** Either a request leaves the node as it is, or the node is Ready and the
    request is handed to an adapter. *)
Lemma handle_cases (s : Node W) (req : Request) :
  snd (handle req s) = s \/
  (initialized s = true /\
   exists a, snd (handle req s) =
     mkNode true (snd (adapter a req (world s))) (history s ++ [Delegate a req])).
Proof.
  destruct (initialized s) eqn:Hflag.
  - each_route req; step_handler; rewrite ?Hflag; cbn; rewrite ?Hflag; auto;
      right; split; auto.
    + exists persistTransaction.
      destruct (adapter persistTransaction req (world s)); reflexivity.
    + exists getTransactionsByChannelId.
      destruct (adapter getTransactionsByChannelId req (world s)); reflexivity.
    + exists getChannelsByTopic.
      destruct (adapter getChannelsByTopic req (world s)); reflexivity.
  - left. apply handle_not_ready. exact Hflag.
Qed.

(** X1. On a Ready node a request that the router gives to an application
    route is handed, once and as received, to the adapter mounted on that
    route; the response is the adapter's, the world is the one the adapter
    leaves, and the node stays Ready. *)
Theorem ready_node_delegates (s : Node W) (req : Request) (a : Adapter) :
  initialized s = true ->
  matched req = Some (adapter_route a) ->
  handle req s =
    (Normal (fst (adapter a req (world s))),
     mkNode true (snd (adapter a req (world s))) (history s ++ [Delegate a req])) /\
  emitted s (snd (handle req s)) = [Delegate a req].
Proof.
  intros Hready Hmatched.
  rewrite (delegated s req a Hready Hmatched). split; [reflexivity |].
  cbn [snd]. apply emitted_app.
Qed.

(** X2. Unless the node is Ready and the request goes to an application
    route, serving it changes nothing (flag, world and history are as
    before) and the answer is one of the three the class writes itself:
    200 "OK", 503 "The node is not initialized", or 404 with the list of
    endpoints. *)
Theorem only_ready_application_requests_act (s : Node W) (req : Request) :
  initialized s = false \/ (forall a, matched req <> Some (adapter_route a)) ->
  snd (handle req s) = s /\
  (fst (handle req s) = Normal (mkResponse 200 "OK") \/
   fst (handle req s) = Normal (mkResponse 503 "The node is not initialized") \/
   fst (handle req s) = Normal (mkResponse 404 NOT_FOUND_MESSAGE)).
Proof.
  intros H. destruct (untouched s req H) as [Hrun | [Hrun | Hrun]];
    rewrite Hrun; cbn; auto.
Qed.

(** X3. The readiness probe tells what the gate does: in every state, GET
    /readyz answers 200 exactly when a request to an application route would
    be handed to its adapter, and 503 exactly when that request would be
    refused with the 503 not-initialized response. *)
Theorem readyz_agrees_with_gate (s : Node W) (probe req : Request) (a : Adapter) :
  matched probe = Some (GET, "/readyz") ->
  matched req = Some (adapter_route a) ->
  exists answer,
    handle probe s = (Normal answer, s) /\
    (status answer = 200 <-> emitted s (snd (handle req s)) = [Delegate a req]) /\
    (status answer = 503 <->
       handle req s = (Normal (mkResponse 503 "The node is not initialized"), s)).
Proof.
  intros Hprobe Hreq.
  assert (Hanswer : handle probe s =
            (Normal (if initialized s
                     then mkResponse 200 "OK"
                     else mkResponse 503 "The node is not initialized"), s)).
  { revert Hprobe. each_route probe; intros Hprobe; try discriminate Hprobe.
    step_handler. destruct (initialized s); reflexivity. }
  eexists. split; [exact Hanswer |].
  destruct (initialized s) eqn:Hflag.
  - rewrite (delegated s req a Hflag Hreq). cbn [snd status]. rewrite emitted_app.
    split; split; intros H; try reflexivity; try discriminate H.
    exfalso. injection H as _ Hs.
    assert (Hlen : length (history (mkNode true (snd (adapter a req (world s)))
                                     (history s ++ [Delegate a req]))) =
                   length (history s)) by (rewrite Hs; reflexivity).
    cbn [history] in Hlen. rewrite length_app in Hlen. cbn in Hlen. lia.
  - assert (Happ : In (adapter_route a) application_routes).
    { destruct a; cbn; auto. }
    rewrite (application_route_not_ready s req (adapter_route a) Hflag Hreq Happ).
    cbn [snd status]. rewrite emitted_same.
    split; split; intros H; try reflexivity; discriminate H.
Qed.

(** ** Histories of whole runs *)

Lemma perform_all_invariant (P : Node W -> Prop) :
  (forall op s, P s -> P (perform op s)) ->
  forall ops s, P s -> P (perform_all ops s).
Proof.
  intros Hstep ops. induction ops as [| op ops IH]; intros s Hs; cbn.
  - exact Hs.
  - apply IH. apply Hstep. exact Hs.
Qed.

Lemma flag_after_app (b : bool) (h evs : list Event) :
  flag_after b (h ++ evs) = flag_after (flag_after b h) evs.
Proof.
  revert b. induction h as [| ev h IH]; intros b; cbn; [reflexivity |].
  destruct ev; apply IH.
Qed.

Lemma gate_respected_app (b : bool) (h evs : list Event) :
  gate_respected b (h ++ evs) =
  gate_respected b h && gate_respected (flag_after b h) evs.
Proof.
  revert b. induction h as [| ev h IH]; intros b; cbn; [reflexivity |].
  destruct ev; try apply IH.
  rewrite IH. apply andb_assoc.
Qed.

Lemma phase_after_app (p : Phase) (h evs : list Event) :
  phase_after p (h ++ evs) =
  match phase_after p h with
  | Some p' => phase_after p' evs
  | None => None
  end.
Proof.
  revert p. induction h as [| ev h IH]; intros p; cbn; [reflexivity |].
  destruct (phase_step p ev); [apply IH | reflexivity].
Qed.

Lemma count_app (f : Event -> bool) (h evs : list Event) :
  count f (h ++ evs) = (count f h + count f evs)%nat.
Proof.
  unfold count. rewrite filter_app, length_app. reflexivity.
Qed.

(** The history a run of [initialize()] leaves. *)
Ltac by_run s :=
  let e := fresh "e" in
  let w1 := fresh "w1" in
  let w2 := fresh "w2" in
  let Hinit := fresh "Hinit" in
  let Hsync := fresh "Hsync" in
  destruct (run_cases s) as [e w1 Hinit | e w1 w2 Hinit Hsync | w1 w2 Hinit Hsync];
  [ rewrite (initialize_backing_throws s e w1 Hinit)
  | rewrite (initialize_synchronization_throws s e w1 w2 Hinit Hsync)
  | rewrite (initialize_completes s w1 w2 Hinit Hsync) ];
  cbn [fst snd initialized world history].

(** X4. However [initialize()] calls and requests follow one another on a
    node fresh from its constructor, no request is ever handed to an adapter
    before a run of [initialize()] has set the flag: every delegation in the
    history comes after a write of [true], and the flag of the node is the
    one its history's writes add up to. *)
Theorem adapters_only_after_readiness (ops : list Operation) (w : W) :
  gate_respected false (history (perform_all ops (constructor w))) = true /\
  flag_after false (history (perform_all ops (constructor w))) =
    initialized (perform_all ops (constructor w)).
Proof.
  apply (perform_all_invariant
           (fun s => gate_respected false (history s) = true /\
                     flag_after false (history s) = initialized s)).
  - intros op s [Hgate Hflag]. destruct op as [| req]; cbn [perform].
    + by_run s; rewrite gate_respected_app, flag_after_app, Hgate, Hflag;
        cbn; split; reflexivity.
    + destruct (handle_cases s req) as [Hsame | [Hready [a Hrun]]].
      * rewrite Hsame. split; assumption.
      * rewrite Hrun. cbn [history initialized].
        rewrite gate_respected_app, flag_after_app, Hgate, Hflag, Hready.
        cbn. split; reflexivity.
  - split; reflexivity.
Qed.

(** X5. Every run of [initialize()] keeps the same order, however many times
    it is called and whatever is served in between: the 10000 ms warm-up,
    then the backing index's [initialize()], then
    [startAutoSynchronization()], then the flag set to [true]; a run that
    stops short does so right after one of the two calls and logs an error.
    The flag is never written [false], and never written before the
    synchronization has been started in the same run. *)
Theorem lifecycle_order_kept (ops : list Operation) (w : W) :
  phase_after Idle (history (perform_all ops (constructor w))) = Some Idle.
Proof.
  apply (perform_all_invariant
           (fun s => phase_after Idle (history s) = Some Idle)).
  - intros op s Hphase. destruct op as [| req]; cbn [perform].
    + by_run s; rewrite phase_after_app, Hphase; reflexivity.
    + destruct (handle_cases s req) as [Hsame | [Hready [a Hrun]]].
      * rewrite Hsame. exact Hphase.
      * rewrite Hrun. cbn [history]. rewrite phase_after_app, Hphase. reflexivity.
  - reflexivity.
Qed.

(** X6. Each call of [initialize()] waits one warm-up and calls the backing
    index's [initialize()] once, again on every later call: after any
    sequence of operations the history holds as many warm-ups and as many
    backing initializations as there were calls, no more starts of the
    synchronization than that, no more flag writes than starts, and no more
    delegations than requests served. *)
Theorem one_warm_up_per_call (ops : list Operation) (w : W) :
  let h := history (perform_all ops (constructor w)) in
  count is_sleep h = initialize_calls ops /\
  count is_backing_initialize h = initialize_calls ops /\
  (count is_start_synchronization h <= initialize_calls ops)%nat /\
  (count is_flag_write h <= count is_start_synchronization h)%nat /\
  (count is_delegation h + initialize_calls ops <= length ops)%nat.
Proof.
  cbv zeta.
  assert (Hgen : forall ops s,
    let h := history s in
    let h' := history (perform_all ops s) in
    count is_sleep h' = (count is_sleep h + initialize_calls ops)%nat /\
    count is_backing_initialize h' =
      (count is_backing_initialize h + initialize_calls ops)%nat /\
    (count is_start_synchronization h' - count is_start_synchronization h
       <= initialize_calls ops)%nat /\
    (count is_start_synchronization h <= count is_start_synchronization h')%nat /\
    (count is_flag_write h' + count is_start_synchronization h
       <= count is_flag_write h + count is_start_synchronization h')%nat /\
    (count is_delegation h' + initialize_calls ops
       <= count is_delegation h + length ops)%nat).
  { clear ops w. intros ops. induction ops as [| op ops IH]; intros s; cbv zeta.
    - cbn. repeat split; lia.
    - cbn [perform_all fold_left]. specialize (IH (perform op s)). cbv zeta in IH.
      fold (perform_all ops (perform op s)).
      destruct IH as [IH1 [IH2 [IH3 [IH4 [IH5 IH6]]]]].
      assert (Hlen : length (op :: ops) = S (length ops)) by reflexivity.
      destruct op as [| req]; cbn [perform] in *.
      + unfold initialize_calls in *. cbn [filter is_call_initialize length].
        revert IH1 IH2 IH3 IH4 IH5 IH6.
        by_run s; rewrite !count_app; cbn; intros; repeat split; lia.
      + unfold initialize_calls in *. cbn [filter is_call_initialize].
        revert IH1 IH2 IH3 IH4 IH5 IH6.
        destruct (handle_cases s req) as [Hsame | [Hready [a Hrun]]].
        * rewrite Hsame. intros; repeat split; lia.
        * rewrite Hrun. cbn [history]. rewrite !count_app. cbn.
          intros; repeat split; lia. }
  specialize (Hgen ops (constructor w)). cbv zeta in Hgen. cbn in Hgen.
  destruct Hgen as [H1 [H2 [H3 [H4 [H5 H6]]]]].
  repeat split; lia.
Qed.

(** ** One run of [initialize()] *)

(** X7. The log of a run tells how it went.  Every run opens with the info
    entry "Node initialization".  A run that the backing index's
    [initialize()] stops adds the one error "Node failed to initialize"; a
    run that [startAutoSynchronization()] stops adds the one error "Node
    failed to start auto synchronization"; a run that completes adds no
    error but "Node initialized" and the timing entry. *)
Theorem log_tells_the_outcome (s : Node W) :
  logs (emitted s (snd (initialize s))) =
    match dataAccess_initialize (timer_fired WARM_UP_DELAY (world s)) with
    | (Throw _, _) =>
        [ LoggerInfo (Text "Node initialization") [];
          LoggerError (Text "Node failed to initialize") ]
    | (Normal _, w1) =>
        match dataAccess_startAutoSynchronization w1 with
        | (Throw _, _) =>
            [ LoggerInfo (Text "Node initialization") [];
              LoggerError (Text "Node failed to start auto synchronization") ]
        | (Normal _, w2) =>
            [ LoggerInfo (Text "Node initialization") [];
              LoggerInfo (Text "Node initialized") [];
              LoggerInfo (TimeToInitialize (Date_now w2 - Date_now (world s)))
                         ["metric"; "initialization"] ]
        end
    end.
Proof.
  by_run s; rewrite emitted_app, Hinit; try rewrite Hsync; reflexivity.
Qed.

(** X8. With a clock that follows the timer (after the warm-up timer has
    fired it shows at least 10000 ms more) and does not go back during the
    two calls to the backing index, the time a run reports is never less
    than the warm-up delay: at least 10000 ms. *)
Theorem reported_time_covers_warm_up (s : Node W) (ms : Z) (tags : list string) :
  (forall w, Date_now w + WARM_UP_DELAY <= Date_now (timer_fired WARM_UP_DELAY w)) ->
  (forall w, Date_now w <= Date_now (snd (dataAccess_initialize w))) ->
  (forall w, Date_now w <= Date_now (snd (dataAccess_startAutoSynchronization w))) ->
  In (LoggerInfo (TimeToInitialize ms) tags) (emitted s (snd (initialize s))) ->
  10000 <= ms.
Proof.
  intros Htimer Hbacking Hstart.
  by_run s; rewrite emitted_app; cbn [In]; intros Hin;
    repeat (destruct Hin as [Hin | Hin]; try discriminate Hin);
    try contradiction.
  injection Hin as Hms _. subst ms.
  pose proof (Htimer (world s)) as H1.
  pose proof (Hbacking (timer_fired WARM_UP_DELAY (world s))) as H2.
  pose proof (Hstart w1) as H3.
  rewrite Hinit in H2. rewrite Hsync in H3. cbn [snd] in H2, H3.
  unfold WARM_UP_DELAY in *. lia.
Qed.

(** X9. Requests that come before the node is Ready are neither queued nor
    replayed, and they do not disturb what follows: on a node that is not
    Ready, serving any requests first and then going on with any operations
    (a call of [initialize()] among them) leaves exactly the node that those
    operations alone would have left. *)
Theorem early_requests_leave_no_trace
    (s : Node W) (reqs : list Request) (ops : list Operation) :
  initialized s = false ->
  perform_all (map Serve reqs ++ ops) s = perform_all ops s /\
  initialize (perform_all (map Serve reqs) s) = initialize s.
Proof.
  intros Hflag. unfold perform_all at 1. rewrite fold_left_app.
  fold (perform_all (map Serve reqs) s). fold (perform_all ops (perform_all (map Serve reqs) s)).
  rewrite (serving_not_ready reqs s Hflag). split; reflexivity.
Qed.

(** ** The process *)

(** X10. The script starts listening before it initializes the node, and its
    exit status follows the backing index: when the data-access layer's
    [initialize()] or [startAutoSynchronization()] throws, the error is
    logged and the process exits with status 1, the node never having been
    Ready; otherwise the process keeps running with a Ready node and never
    calls [process.exit].  With [-h] only the help is printed. *)
Theorem exit_status_follows_backing {C : Config} (w : W) :
  (exists evs,
     snd (main false w) = LoggerInfoMessage serverMessage :: Listen getServerPort :: evs) /\
  match fst (main false w) with
  | Running requestNode =>
      fst (initialize (constructor w)) = Normal tt /\
      initialized requestNode = true /\
      (forall code, ~ In (ProcessExit code) (snd (main false w)))
  | Exited code requestNode =>
      code = 1 /\
      initialized requestNode = false /\
      exists error front,
        backing_fails (constructor w) error /\
        snd (main false w) = (front ++ [LoggerErrorValue error; ProcessExit 1])%list
  | HelpPrinted => False
  end /\
  main true w = (HelpPrinted, [ConsoleLog getHelpMessage]).
Proof.
  split; [| split; [| reflexivity]].
  - unfold main, startNode.
    destruct (initialize (constructor w)) as [[[] | e] n]; cbn; eexists; reflexivity.
  - unfold main, startNode.
    by_run (constructor w).
    + split; [reflexivity |]. split; [reflexivity |].
      exists e. eexists. split; [left; exists w1; exact Hinit | reflexivity].
    + split; [reflexivity |]. split; [reflexivity |].
      exists e. eexists.
      split; [right; exists w1, w2; split; assumption | reflexivity].
    + split; [reflexivity |]. split; [reflexivity |].
      intros code Hin. cbn in Hin.
      repeat (destruct Hin as [Hin | Hin]; try discriminate Hin).
      exact Hin.
Qed.

End Coverage.

(** * Concrete runs *)

Module Runs.
Import Example.

(** C1 on a fresh node. *)
Lemma gate_rejects_until_ready_witness :
  initialized (constructor healthy) = false /\
  matched persist = Some (POST, "/persistTransaction") /\
  In (POST, "/persistTransaction") application_routes /\
  handle persist (constructor healthy) =
    (Normal (mkResponse 503 "The node is not initialized"), constructor healthy) /\
  emitted (constructor healthy) (snd (handle persist (constructor healthy))) = [] /\
  world (snd (handle persist (constructor healthy))) = world (constructor healthy).
Proof.
  split; [reflexivity |]. split; [reflexivity |]. split; [left; reflexivity |].
  apply (gate_rejects_until_ready (constructor healthy) persist
           (POST, "/persistTransaction"));
    [reflexivity | reflexivity | left; reflexivity].
Defined.

(** C4 on a node that has completed its initialization. *)
Lemma readyz_reports_readiness_witness :
  matched (get "/readyz") = Some (GET, "/readyz") /\
  handle (get "/readyz") (snd (initialize (constructor healthy))) =
    (Normal (mkResponse 200 "OK"), snd (initialize (constructor healthy))).
Proof.
  split; [reflexivity |].
  exact (proj1 (readyz_reports_readiness (snd (initialize (constructor healthy)))
                  (get "/readyz") eq_refl)).
Defined.

(** C6 on a node whose initialization failed. *)
Lemma healthz_always_ok_witness :
  matched (get "/healthz") = Some (GET, "/healthz") /\
  handle (get "/healthz") (snd (initialize (constructor late_storage))) =
    (Normal (mkResponse 200 "OK"), snd (initialize (constructor late_storage))).
Proof.
  split; [reflexivity |].
  apply (healthz_always_ok (snd (initialize (constructor late_storage)))
           (get "/healthz")).
  reflexivity.
Defined.

(** C7 on GET /foo. *)
Lemma unknown_route_not_found_witness :
  matched (get "/foo") = None /\
  handle (get "/foo") (constructor healthy) =
    (Normal (mkResponse 404 NOT_FOUND_MESSAGE), constructor healthy).
Proof.
  split; [reflexivity |].
  exact (proj1 (unknown_route_not_found (constructor healthy) (get "/foo") eq_refl)).
Defined.

(** C2: a run that completes goes through four steps, the first of which is
    the warm-up delay; the document's sequence starts with a transition to
    Initializing that the run never makes. *)
Lemma initialize_makes_no_initializing_transition :
  fst (initialize (constructor healthy)) = Normal tt /\
  lifecycle_steps (history (snd (initialize (constructor healthy)))) =
    [ Spec.WarmUpDelay; Spec.BackingInitialize; Spec.StartSynchronization;
      Spec.Transition Spec.Ready ] /\
  lifecycle_steps (history (snd (initialize (constructor healthy)))) <>
    Spec.documented_sequence.
Proof.
  split; [reflexivity |]. split; [reflexivity |].
  cbn. discriminate.
Qed.

(** C3 on a node whose storage was not up. *)
Lemma failed_initialize_keeps_gate_closed_witness :
  initialized (constructor late_storage) = false /\
  backing_fails (constructor late_storage) "storage unreachable" /\
  fst (initialize (constructor late_storage)) = Throw "storage unreachable" /\
  handle persist
    (perform_all (map Serve [get "/readyz"; persist; get "/getChannelsByTopic"])
       (snd (initialize (constructor late_storage)))) =
    (Normal (mkResponse 503 "The node is not initialized"),
     snd (initialize (constructor late_storage))).
Proof.
  assert (Hfails : backing_fails (constructor late_storage) "storage unreachable").
  { left. eexists. reflexivity. }
  split; [reflexivity |]. split; [exact Hfails |].
  pose proof (failed_initialize_keeps_gate_closed
                (constructor late_storage) "storage unreachable"
                [get "/readyz"; persist; get "/getChannelsByTopic"]
                persist (POST, "/persistTransaction")
                eq_refl Hfails eq_refl (or_introl eq_refl)) as H.
  split; [apply H | apply H].
Defined.

(** C3: the storage refuses the first [initialize()], which throws.  The run
    makes no transition at all, to Failed or otherwise: the node is in the
    state the constructor gave it.  A second call then completes, and the
    application route hands the request to its adapter instead of answering
    503. *)
Lemma retry_after_failure_opens_gate :
  fst (initialize (constructor late_storage)) = Throw "storage unreachable" /\
  lifecycle_steps (history (snd (initialize (constructor late_storage)))) =
    [Spec.WarmUpDelay; Spec.BackingInitialize] /\
  lifecycle_steps (history (snd (initialize (constructor late_storage)))) <>
    Spec.documented_failure_sequence /\
  initialized (snd (initialize (constructor late_storage))) =
    initialized (constructor late_storage) /\
  matched persist = Some (POST, "/persistTransaction") /\
  let later := perform_all [CallInitialize; CallInitialize] (constructor late_storage) in
  initialized later = true /\
  fst (handle persist later) = Normal (mkResponse 200 "tx") /\
  fst (handle persist later) <>
    Normal (mkResponse 503 "The node is not initialized") /\
  emitted later (snd (handle persist later)) = [Delegate persistTransaction persist].
Proof.
  repeat split; try reflexivity; cbn; discriminate.
Qed.

(** C5 on a node that is initialized, serves, fails a second initialization
    and serves again. *)
Lemma readiness_never_regresses_witness :
  initialized (perform_all [CallInitialize] (constructor flaky_storage)) = true /\
  fst (initialize (perform_all [CallInitialize; Serve persist] (constructor flaky_storage)))
    = Throw "storage unreachable" /\
  initialized
    (perform_all ([CallInitialize] ++ [Serve persist; CallInitialize; Serve (get "/readyz")])
       (constructor flaky_storage)) = true.
Proof.
  split; [reflexivity |]. split; [reflexivity |].
  exact (proj1 (readiness_never_regresses [CallInitialize]
                  [Serve persist; CallInitialize; Serve (get "/readyz")]
                  (constructor flaky_storage) eq_refl)).
Defined.

(** C5: a failed node is not at a dead end.  The synchronization refuses to
    start, [initialize()] throws and writes no state: the node is as the
    constructor left it.  A second call then completes and takes the node to
    Ready. *)
Lemma failed_node_becomes_ready :
  fst (initialize (constructor late_synchronization)) = Throw "synchronization refused" /\
  lifecycle_steps (history (snd (initialize (constructor late_synchronization)))) =
    [Spec.WarmUpDelay; Spec.BackingInitialize; Spec.StartSynchronization] /\
  initialized (snd (initialize (constructor late_synchronization))) =
    initialized (constructor late_synchronization) /\
  fst (initialize (snd (initialize (constructor late_synchronization)))) = Normal tt /\
  lifecycle_steps
    (emitted (snd (initialize (constructor late_synchronization)))
       (perform_all [CallInitialize; CallInitialize] (constructor late_synchronization))) =
    [ Spec.WarmUpDelay; Spec.BackingInitialize; Spec.StartSynchronization;
      Spec.Transition Spec.Ready ] /\
  initialized
    (perform_all [CallInitialize; CallInitialize] (constructor late_synchronization)) = true /\
  initialized
    (perform_all [CallInitialize; CallInitialize] (constructor late_synchronization)) <>
  initialized (perform_all [CallInitialize] (constructor late_synchronization)).
Proof.
  repeat split; try reflexivity. cbn. discriminate.
Qed.

(** C8: a run that throws emits no timing measurement. *)
Lemma failed_run_emits_no_timing :
  fst (initialize (constructor late_storage)) = Throw "storage unreachable" /\
  history (snd (initialize (constructor late_storage))) =
    [ LoggerInfo (Text "Node initialization") [];
      Sleep 10000;
      DataAccessInitialize;
      LoggerError (Text "Node failed to initialize") ] /\
  existsb is_timing (history (snd (initialize (constructor late_storage)))) = false.
Proof.
  repeat split; reflexivity.
Qed.

(** C9 on a node that is already Ready. *)
Lemma second_initialize_runs_again_witness :
  initialize (constructor healthy) = (Normal tt, snd (initialize (constructor healthy))) /\
  initialized (snd (initialize (constructor healthy))) = true /\
  effects (emitted (snd (initialize (constructor healthy)))
             (snd (initialize (snd (initialize (constructor healthy)))))) =
    [Sleep 10000; DataAccessInitialize; DataAccessStartAutoSynchronization;
     SetInitialized true].
Proof.
  split; [reflexivity |].
  pose proof (second_initialize_runs_again (constructor healthy)
                (snd (initialize (constructor healthy))) eq_refl) as H.
  split; [apply H |].
  destruct H as [_ [H _]]. rewrite H. reflexivity.
Defined.

(** C10 on a node whose storage was not up. *)
Lemma failed_indistinguishable_from_fresh_witness :
  initialized (constructor late_storage) = false /\
  initialize (constructor late_storage) =
    (Throw "storage unreachable", snd (initialize (constructor late_storage))) /\
  fst (handle persist (snd (initialize (constructor late_storage)))) =
    fst (handle persist (constructor late_storage)).
Proof.
  split; [reflexivity |]. split; [reflexivity |].
  exact (proj1 (proj2 (failed_indistinguishable_from_fresh (constructor late_storage)
                         (snd (initialize (constructor late_storage)))
                         "storage unreachable" persist eq_refl eq_refl))).
Defined.

End Runs.

(** * More concrete runs *)

Module Cases.
Import Example.

(** X1 on a node that has completed its initialization. *)
Lemma ready_node_delegates_witness :
  initialized (snd (initialize (constructor healthy))) = true /\
  matched persist = Some (adapter_route persistTransaction) /\
  fst (handle persist (snd (initialize (constructor healthy)))) =
    Normal (mkResponse 200 "tx") /\
  emitted (snd (initialize (constructor healthy)))
          (snd (handle persist (snd (initialize (constructor healthy))))) =
    [Delegate persistTransaction persist].
Proof.
  split; [reflexivity |]. split; [reflexivity |].
  pose proof (ready_node_delegates (snd (initialize (constructor healthy)))
                persist persistTransaction eq_refl eq_refl) as [Hrun Hemitted].
  split; [rewrite Hrun; reflexivity | exact Hemitted].
Defined.

(** X2 on the readiness probe of a Ready node. *)
Lemma only_ready_application_requests_act_witness :
  (forall a, matched (get "/readyz") <> Some (adapter_route a)) /\
  snd (handle (get "/readyz") (snd (initialize (constructor healthy)))) =
    snd (initialize (constructor healthy)).
Proof.
  assert (Hroute : forall a, matched (get "/readyz") <> Some (adapter_route a)).
  { intros a. destruct a; discriminate. }
  split; [exact Hroute |].
  exact (proj1 (only_ready_application_requests_act
                  (snd (initialize (constructor healthy))) (get "/readyz")
                  (or_intror Hroute))).
Defined.

(** X3 on a fresh node and on a Ready one. *)
Lemma readyz_agrees_with_gate_witness :
  matched (get "/readyz") = Some (GET, "/readyz") /\
  matched persist = Some (adapter_route persistTransaction) /\
  (exists answer,
     handle (get "/readyz") (constructor healthy) = (Normal answer, constructor healthy) /\
     (status answer = 200 <->
        emitted (constructor healthy) (snd (handle persist (constructor healthy))) =
          [Delegate persistTransaction persist]) /\
     (status answer = 503 <->
        handle persist (constructor healthy) =
          (Normal (mkResponse 503 "The node is not initialized"), constructor healthy))).
Proof.
  split; [reflexivity |]. split; [reflexivity |].
  exact (readyz_agrees_with_gate (constructor healthy) (get "/readyz") persist
           persistTransaction eq_refl eq_refl).
Defined.

(** X8 in the example world, whose clock advances with the timer and with
    each call. *)
Lemma reported_time_covers_warm_up_witness :
  In (LoggerInfo (TimeToInitialize 10251) ["metric"; "initialization"])
     (emitted (constructor healthy) (snd (initialize (constructor healthy)))) /\
  10000 <= 10251.
Proof.
  assert (Hin : In (LoggerInfo (TimeToInitialize 10251) ["metric"; "initialization"])
                   (emitted (constructor healthy)
                            (snd (initialize (constructor healthy))))).
  { cbn. auto 10. }
  split; [exact Hin |].
  apply (reported_time_covers_warm_up (constructor healthy) 10251
           ["metric"; "initialization"]).
  - intros w. cbn. lia.
  - intros w. cbn. unfold world_initialize.
    destruct (scripted "storage unreachable" (backing w)). cbn. lia.
  - intros w. cbn. unfold world_startAutoSynchronization.
    destruct (scripted "synchronization refused" (synchronizer w)). cbn. lia.
  - exact Hin.
Defined.

(** X9 on a fresh node: two early requests, then a run and a request. *)
Lemma early_requests_leave_no_trace_witness :
  initialized (constructor healthy) = false /\
  perform_all (map Serve [persist; get "/healthz"] ++ [CallInitialize; Serve persist])
              (constructor healthy) =
    perform_all [CallInitialize; Serve persist] (constructor healthy).
Proof.
  split; [reflexivity |].
  exact (proj1 (early_requests_leave_no_trace (constructor healthy)
                  [persist; get "/healthz"] [CallInitialize; Serve persist] eq_refl)).
Defined.

End Cases.
